(** * NICMOS unit-conversion notebook: a verification development

  The notebook [nicmos_unit_conversion.ipynb] replays three conversions of
  the NICMOS Units Conversion Form with [astropy.units], [synphot] and
  [math].  Each code cell is embedded below under the names it binds; the
  library calls it makes ([Quantity.to], [u.spectral], [u.spectral_density],
  [u.ABmag], [SourceSpectrum], [math.log10]) are embedded in modules named
  after the Python modules that provide them.

  Numbers.  A Python [float] is embedded as a real number and every
  arithmetic operation as the exact operation on reals, so a statement
  below speaks about the value the notebook computes up to the rounding of
  binary64 arithmetic.  The values [inf] and [nan] are outside the model:
  statements are made where Python produces finite numbers.

  Failure.  A Python exception is embedded as a [Raise] result carrying the
  name of the exception class. *)

From Stdlib Require Import Reals Lra Psatz ZArith QArith Qreals String List Bool.
Import ListNotations.
Local Open Scope string_scope.
Local Open Scope R_scope.

(* ===================================================================== *)
(** * Python: exceptions and results *)
(* ===================================================================== *)

Module py.

(** An exception, identified by the name of its class. *)
Inductive exn : Type := Exn (cls : string).

Definition exn_class (e : exn) : string := match e with Exn c => c end.

Definition ValueError : exn := Exn "ValueError".
Definition TypeError : exn := Exn "TypeError".
Definition UnitConversionError : exn := Exn "UnitConversionError".
Definition IncompatibleSources : exn := Exn "IncompatibleSources".

(** The outcome of evaluating an expression: a value or a raised exception. *)
Inductive result (A : Type) : Type :=
  | Ok (a : A)
  | Raise (e : exn).
Arguments Ok {A} a.
Arguments Raise {A} e.

Definition bind {A B : Type} (r : result A) (k : A -> result B) : result B :=
  match r with
  | Ok a => k a
  | Raise e => Raise e
  end.

End py.
Import py.

Notation "x <- r ;; k" := (py.bind r (fun x => k))
  (at level 61, r at next level, right associativity).

(* ===================================================================== *)
(** * Floating-point primitives used by the notebook and its libraries *)
(* ===================================================================== *)

Module np.

(** [x ** p] on floats, for the non-negative bases the notebook meets:
    [0 ** p] is [0] for a positive [p].  (A negative base gives [nan] in
    Python; it has no counterpart here and no statement below relies on
    it.) *)
Definition power (x p : R) : R :=
  if Rlt_dec 0 x then Rpower x p else 0.

(** [np.log10]: no exception is raised (a warning is, out of domain). *)
Definition log10 (x : R) : R := ln x / ln 10.

(** [np.expm1] *)
Definition expm1 (x : R) : R := exp x - 1.

End np.

Module math.

(** Python's standard [math] module.
    [math.log10(x)] raises [ValueError: math domain error] unless [x > 0]. *)
Definition log10 (x : R) : result R :=
  if Rle_dec x 0 then Raise ValueError else Ok (ln x / ln 10).

End math.

(* ===================================================================== *)
(** * astropy.constants (CODATA 2018, SI values) *)
(* ===================================================================== *)

Module const.

(** Modelled from the spec: [astropy.constants] is not under src/.  The
    speed of light, by which a frequency is derived from a wavelength, the
    Planck and Boltzmann constants of Planck's law, and the solar radius and
    kiloparsec that scale [BlackBodyNorm1D], at the library's values. *)
Definition c : R := 299792458.
Definition h : R := 6.62607015e-34.
Definition k_B : R := 1.380649e-23.
Definition R_sun : R := 6.957e8.
Definition kpc : R := 3.0856775814913673e19.

End const.

(* ===================================================================== *)
(** * astropy.units *)
(* ===================================================================== *)

Declare Scope unit_scope.
Delimit Scope unit_scope with unit.

Module u.

(** ** Units

    Modelled from the spec: [astropy.units] is not under src/.  It is the
    spec's Unit Value: a number tagged with a unit, converted between scales
    of one dimension by a fixed factor, across the wavelength/frequency
    duality and between kinds of flux density given a wavelength, and to a
    magnitude by a logarithm.  The embedding keeps the library's names.

    A unit decomposes into a scale and rational powers of the irreducible
    bases kg, m, s, K, rad and photon. *)

Record dimension : Type := Dim {
  d_kg : Q; d_m : Q; d_s : Q; d_K : Q; d_rad : Q; d_ph : Q
  }.

Definition dim_map2 (f : Q -> Q -> Q) (a b : dimension) : dimension :=
  Dim (f (d_kg a) (d_kg b)) (f (d_m a) (d_m b)) (f (d_s a) (d_s b))
      (f (d_K a) (d_K b)) (f (d_rad a) (d_rad b)) (f (d_ph a) (d_ph b)).

Definition dim_mul : dimension -> dimension -> dimension := dim_map2 Qplus.
Definition dim_div : dimension -> dimension -> dimension := dim_map2 Qminus.
Definition dim_pow (a : dimension) (p : Q) : dimension :=
  Dim (d_kg a * p) (d_m a * p) (d_s a * p) (d_K a * p) (d_rad a * p) (d_ph a * p).

Definition dim_eqb (a b : dimension) : bool :=
  Qeq_bool (d_kg a) (d_kg b) && Qeq_bool (d_m a) (d_m b) &&
  Qeq_bool (d_s a) (d_s b) && Qeq_bool (d_K a) (d_K b) &&
  Qeq_bool (d_rad a) (d_rad b) && Qeq_bool (d_ph a) (d_ph b).

Record Unit : Type := mkUnit { scale : R; dim : dimension }.

Definition unit_mul (a b : Unit) : Unit :=
  mkUnit (scale a * scale b) (dim_mul (dim a) (dim b)).
Definition unit_div (a b : Unit) : Unit :=
  mkUnit (scale a / scale b) (dim_div (dim a) (dim b)).
Definition unit_pow (a : Unit) (p : Q) : Unit :=
  mkUnit (np.power (scale a) (Q2R p)) (dim_pow (dim a) p).

Bind Scope unit_scope with Unit.
Infix "*" := unit_mul : unit_scope.
Infix "/" := unit_div : unit_scope.

Definition d0 : dimension := Dim 0 0 0 0 0 0.

Definition dimensionless_unscaled : Unit := mkUnit 1 d0.
Definition kg : Unit := mkUnit 1 (Dim 1 0 0 0 0 0).
Definition m : Unit := mkUnit 1 (Dim 0 1 0 0 0 0).
Definition s : Unit := mkUnit 1 (Dim 0 0 1 0 0 0).
Definition K : Unit := mkUnit 1 (Dim 0 0 0 1 0 0).
Definition rad : Unit := mkUnit 1 (Dim 0 0 0 0 1 0).
Definition photon : Unit := mkUnit 1 (Dim 0 0 0 0 0 1).

Definition cm : Unit := mkUnit 1e-2 (dim m).
Definition micron : Unit := mkUnit 1e-6 (dim m).
Definition AA : Unit := mkUnit 1e-10 (dim m).
Definition sr : Unit := mkUnit 1 (Dim 0 0 0 0 2 0).
Definition Hz : Unit := mkUnit 1 (Dim 0 0 (-1) 0 0 0).
Definition J : Unit := mkUnit 1 (Dim 1 2 (-2) 0 0 0).
Definition erg : Unit := mkUnit 1e-7 (dim J).
Definition W : Unit := mkUnit 1 (Dim 1 2 (-3) 0 0 0).
Definition Jy : Unit := mkUnit 1e-26 (Dim 1 0 (-2) 0 0 0).

(** [UnitBase._to]: the factor from one unit to another of the same
    dimension, [UnitsError] (here its subclass raised by [to]) otherwise. *)
Definition _to (from target : Unit) : result R :=
  if dim_eqb (dim from) (dim target)
  then Ok (scale from / scale target)
  else Raise UnitConversionError.

(** ** Quantities *)

Record Quantity : Type := mkQuantity { value : R; unit : Unit }.

(** [x * unit] *)
Definition quantity (x : R) (un : Unit) : Quantity := mkQuantity x un.
(** [float * Quantity], [Quantity / float], [Quantity / Quantity],
    [Quantity * Unit], [Quantity / Unit], [Quantity ** p] *)
Definition rmul (x : R) (q : Quantity) : Quantity :=
  mkQuantity (x * value q) (unit q).
Definition div_float (q : Quantity) (x : R) : Quantity :=
  mkQuantity (value q / x) (unit q).
Definition div (a b : Quantity) : Quantity :=
  mkQuantity (value a / value b) (unit_div (unit a) (unit b)).
Definition mul_unit (q : Quantity) (un : Unit) : Quantity :=
  mkQuantity (value q) (unit_mul (unit q) un).
Definition div_unit (q : Quantity) (un : Unit) : Quantity :=
  mkQuantity (value q) (unit_div (unit q) un).
Definition pow (q : Quantity) (p : Q) : Quantity :=
  mkQuantity (np.power (value q) (Q2R p)) (unit_pow (unit q) p).

(** ** Equivalencies

    An equivalency is a tuple [(funit, tunit, forward, backward)]. *)

Record Equivalency : Type := mkEquiv {
  funit : Unit;
  tunit : Unit;
  forward : R -> result R;
  backward : R -> result R
  }.

(** [make_converter(scale1, func, scale2)] of [_apply_equivalencies]. *)
Definition make_converter (scale1 : R) (func : R -> result R) (scale2 : R)
  (v : R) : result R :=
  y <- func (v / scale1) ;; Ok (y * scale2).

(** [UnitBase._apply_equivalencies]: the first equivalency, in either
    direction, whose two ends reach [from] and [target] by scaling. *)
Fixpoint _apply_equivalencies (from target : Unit) (eqs : list Equivalency)
  (v : R) : result R :=
  match eqs with
  | [] => Raise UnitConversionError
  | e :: rest =>
      match _to (funit e) from, _to (tunit e) target with
      | Ok scale1, Ok scale2 => make_converter scale1 (forward e) scale2 v
      | _, _ =>
          match _to (tunit e) from, _to (funit e) target with
          | Ok scale1, Ok scale2 => make_converter scale1 (backward e) scale2 v
          | _, _ => _apply_equivalencies from target rest v
          end
      end
  end.

(** [Quantity.to_value(unit, equivalencies)]: plain scaling first, the
    equivalencies when the dimensions differ. *)
Definition to_value (q : Quantity) (target : Unit) (eqs : list Equivalency)
  : result R :=
  match _to (unit q) target with
  | Ok k => Ok (value q * k)
  | Raise _ => _apply_equivalencies (unit q) target eqs (value q)
  end.

(** [Quantity.to(unit, equivalencies)] *)
Definition to (q : Quantity) (target : Unit) (eqs : list Equivalency)
  : result Quantity :=
  x <- to_value q target eqs ;; Ok (mkQuantity x target).

(** A quantity is a wavelength (a frequency, a flux density per frequency)
    when its unit has the dimension of the metre (of the hertz, of the
    jansky). *)
Definition has_dim (q : Quantity) (un : Unit) : Prop :=
  dim_eqb (dim (unit q)) (dim un) = true.

(** The value of a quantity in the unit [un], by scaling. *)
Definition value_in (q : Quantity) (un : Unit) : R :=
  value q * (scale (unit q) / scale un).

(** [Quantity.__float__]: only a dimensionless quantity converts. *)
Definition float (q : Quantity) : result R :=
  match to_value q dimensionless_unscaled [] with
  | Ok x => Ok x
  | Raise _ => Raise TypeError
  end.

(** ** [u.spectral()]

    Modelled from the spec: the wavelength/frequency inversion through the
    speed of light.  Wavelength, frequency and photon energy; the wavenumber entries of the
    library's list are not reached by the notebook and are left out. *)

Definition spectral : list Equivalency :=
  let c := const.c in
  let h := const.h in
  let hc := h * c in
  [ mkEquiv m Hz (fun x => Ok (c / x)) (fun x => Ok (c / x));
    mkEquiv m J (fun x => Ok (hc / x)) (fun x => Ok (hc / x));
    mkEquiv Hz J (fun x => Ok (h * x)) (fun x => Ok (x / h)) ].

(** ** [u.spectral_density(wav)]

    Modelled from the spec: the conversions between photon flux, flux per
    wavelength and flux per frequency, which depend on the photon energy at
    the wavelength given.  Flux densities per wavelength ([f_la]), per frequency ([f_nu]) and in
    photons per wavelength ([phot_f_la]) at the wavelength [wav]; every
    converter first takes [wav] to Angstrom through [spectral()]. *)

Definition f_la : Unit := (erg / AA / (cm * cm) / s)%unit.
Definition f_nu : Unit := (erg / Hz / (cm * cm) / s)%unit.
Definition phot_f_la : Unit := (photon / ((cm * cm) * s * AA))%unit.

Definition spectral_density (wav : Quantity) : list Equivalency :=
  let h_cgs := const.h * 1e7 in
  let c_Aps := const.c * 1e10 in
  let hc := c_Aps * h_cgs in
  let wav_AA := to_value wav AA spectral in
  [ mkEquiv f_la f_nu
      (fun x => w <- wav_AA ;; Ok (x * (w * w / c_Aps)))
      (fun x => w <- wav_AA ;; Ok (x / (w * w / c_Aps)));
    mkEquiv phot_f_la f_la
      (fun x => w <- wav_AA ;; Ok (hc * x / w))
      (fun x => w <- wav_AA ;; Ok (x * w / hc));
    mkEquiv phot_f_la f_nu
      (fun x => w <- wav_AA ;; Ok (h_cgs * x * w))
      (fun x => w <- wav_AA ;; Ok (x / (w * h_cgs))) ].

(** ** Magnitudes

    Modelled from the spec: [magnitude = -2.5 * log10 (flux / zero point)],
    the AB zero point being the library's own constant.  [u.ABmag] is the logarithmic unit [MagUnit(ABflux)], with
    [ABflux = 10.**(48.6/-2.5) erg / (cm2 s Hz)]. *)

Definition ABflux : Unit :=
  mkUnit (np.power 10 (48.6 / -2.5) * scale f_nu) (dim f_nu).

Record MagUnit : Type := mkMagUnit { physical_unit : Unit }.

Definition ABmag : MagUnit := mkMagUnit ABflux.

Record Magnitude : Type := mkMagnitude { mag_value : R; mag_unit : MagUnit }.

(** [MagUnit.from_physical] *)
Definition from_physical (x : R) : R := -2.5 * np.log10 x.

(** [Quantity.to(unit, equivalencies)] for a logarithmic [unit]: convert to
    its physical unit, then take the logarithm. *)
Definition to_mag (q : Quantity) (target : MagUnit) (eqs : list Equivalency)
  : result Magnitude :=
  x <- to_value q (physical_unit target) eqs ;;
  Ok (mkMagnitude (from_physical x) target).

End u.

Infix "*" := u.unit_mul : unit_scope.
Infix "/" := u.unit_div : unit_scope.

(* ===================================================================== *)
(** * synphot *)
(* ===================================================================== *)

Module syn_u.

(** Modelled from the spec: [synphot.units] is not under src/.  PHOTLAM is
    the photon flux density per wavelength, FLAM and FNU the flux densities
    per wavelength and per frequency. *)
Definition PHOTLAM : u.Unit := (u.photon / ((u.cm * u.cm) * u.s * u.AA))%unit.
Definition FLAM : u.Unit := (u.erg / ((u.cm * u.cm) * u.s * u.AA))%unit.
Definition FNU : u.Unit := (u.erg / ((u.cm * u.cm) * u.s * u.Hz))%unit.

(** [units.convert_flux(wavelengths, fluxes, out_flux_unit)], on the path
    the built-in equivalencies serve. *)
Definition convert_flux (wavelengths fluxes : u.Quantity) (out_flux_unit : u.Unit)
  : result u.Quantity :=
  u.to fluxes out_flux_unit (u.spectral_density wavelengths).

End syn_u.

Module synphot.

(** Modelled from the spec: [synphot] and the blackbody of
    [astropy.modeling] are not under src/.  It is the spec's Spectral Model
    for the blackbody: Planck's radiance law at the temperature, converted
    to the model's natural unit (PHOTLAM), with a scale factor attached by
    multiplication.

    [blackbody_nu(in_x, temperature)]: Planck's law per unit frequency,
    in erg / (cm2 s Hz sr). *)
Definition blackbody_nu (in_x temperature : u.Quantity) : result u.Quantity :=
  freq <- u.to_value in_x u.Hz u.spectral ;;
  temp <- u.to_value temperature u.K [] ;;
  if Rlt_dec temp 0 then Raise ValueError else
  let log_boltz := const.h * freq / (const.k_B * temp) in
  let boltzm1 := np.expm1 log_boltz in
  let bb_nu :=
    u.quantity (2 * const.h * (freq * freq * freq) / (const.c * const.c * boltzm1))
      (u.J * u.s * (u.Hz * u.Hz * u.Hz) / ((u.m / u.s) * (u.m / u.s)))%unit in
  flux <- u.to bb_nu syn_u.FNU (u.spectral_density (u.quantity freq u.Hz)) ;;
  Ok (u.div_unit flux u.sr).

(** [BlackBody1D.evaluate(x, temperature)]: [x] in Angstrom, result in
    PHOTLAM. *)
Definition BlackBody1D_evaluate (x temperature : R) : result R :=
  let wave := u.quantity x u.AA in
  bbnu_flux <- blackbody_nu wave (u.quantity temperature u.K) ;;
  u.to_value (u.mul_unit bbnu_flux u.sr) syn_u.PHOTLAM (u.spectral_density wave).

(** [BlackBodyNorm1D]: a blackbody star of one solar radius at 1 kpc. *)
Definition omega : R := PI * ((const.R_sun / const.kpc) * (const.R_sun / const.kpc)).

Definition BlackBodyNorm1D_evaluate (x temperature : R) : result R :=
  bbflux <- BlackBody1D_evaluate x temperature ;;
  Ok (bbflux * omega).

(** The model behind a spectrum: the blackbody, or a model scaled by a
    constant factor. *)
Inductive Model : Type :=
| BlackBodyNorm1D (temperature : R)
| Scaled (model : Model) (factor : R).

Fixpoint evaluate (md : Model) (x : R) : result R :=
  match md with
  | BlackBodyNorm1D temperature => BlackBodyNorm1D_evaluate x temperature
  | Scaled model factor => y <- evaluate model x ;; Ok (y * factor)
  end.

Record SourceSpectrum : Type := mkSourceSpectrum { model : Model }.

(** [SourceSpectrum(BlackBodyNorm1D, temperature=t)] *)
Definition SourceSpectrum_BlackBodyNorm1D (temperature : u.Quantity)
  : result SourceSpectrum :=
  t <- u.to_value temperature u.K [] ;;
  Ok (mkSourceSpectrum (BlackBodyNorm1D t)).

(** [sp(wavelengths, flux_unit=None)] *)
Definition call (sp : SourceSpectrum) (wavelengths : u.Quantity)
  (flux_unit : option u.Unit) : result u.Quantity :=
  w <- u.to_value wavelengths u.AA u.spectral ;;
  y <- evaluate (model sp) w ;;
  match flux_unit with
  | None => Ok (u.quantity y syn_u.PHOTLAM)
  | Some fu => syn_u.convert_flux (u.quantity w u.AA) (u.quantity y syn_u.PHOTLAM) fu
  end.

(** [sp * other] for a [Quantity]: only a dimensionless one is accepted. *)
Definition mul (sp : SourceSpectrum) (other : u.Quantity) : result SourceSpectrum :=
  match u._to (u.unit other) u.dimensionless_unscaled with
  | Ok k =>
      if Req_dec_T k 1
      then Ok (mkSourceSpectrum (Scaled (model sp) (u.value other)))
      else Raise IncompatibleSources
  | Raise _ => Raise IncompatibleSources
  end.

End synphot.

(* ===================================================================== *)
(** * The notebook *)
(* ===================================================================== *)

Module Notebook.

(** ** Example 1: Simple Jy to AB mag *)

Definition input_flux_ex1 : u.Quantity := u.quantity 1e-13 u.Jy.
Definition input_wave_ex1 : u.Quantity := u.quantity 1 u.micron.
Definition abmag_ex1 : result u.Magnitude :=
  u.to_mag input_flux_ex1 u.ABmag (u.spectral_density input_wave_ex1).

(** ** Example 2: PHOTLAM to FNU for Blackbody

    The cells are embedded as functions of the values the form supplies
    ([_of]); the names of the notebook are these functions at its literals. *)

Definition bb_ex2_of (temperature : u.Quantity) : result synphot.SourceSpectrum :=
  synphot.SourceSpectrum_BlackBodyNorm1D temperature.

Definition factor_ex2_of (bb : synphot.SourceSpectrum)
  (input_flux input_wave : u.Quantity) : result u.Quantity :=
  f <- synphot.call bb input_wave None ;;
  Ok (u.div input_flux f).

Definition input_ex2_of (bb : synphot.SourceSpectrum)
  (input_flux input_wave : u.Quantity) : result synphot.SourceSpectrum :=
  factor <- factor_ex2_of bb input_flux input_wave ;;
  synphot.mul bb factor.

Definition flux_ex2_of (input : synphot.SourceSpectrum) (output_wave : u.Quantity)
  : result u.Quantity :=
  synphot.call input output_wave (Some syn_u.FNU).

Definition bb_ex2 : result synphot.SourceSpectrum :=
  bb_ex2_of (u.quantity 5500 u.K).
Definition input_flux_ex2 : u.Quantity := u.quantity 1 syn_u.PHOTLAM.
Definition input_wave_ex2 : u.Quantity := u.quantity 0.5 u.micron.
Definition factor_ex2 : result u.Quantity :=
  bb <- bb_ex2 ;; factor_ex2_of bb input_flux_ex2 input_wave_ex2.
Definition input_ex2 : result synphot.SourceSpectrum :=
  bb <- bb_ex2 ;; input_ex2_of bb input_flux_ex2 input_wave_ex2.
Definition output_wave_ex2 : u.Quantity := u.quantity 0.6 u.micron.
Definition flux_ex2 : result u.Quantity :=
  input <- input_ex2 ;; flux_ex2_of input output_wave_ex2.

(** ** Example 3: W/m2/Hz to I-mag for Power-Law *)

Definition input_flux_ex3 : u.Quantity :=
  u.quantity 1e-23 (u.W / (u.m * u.m * u.Hz))%unit.
Definition input_wave_ex3 : u.Quantity := u.quantity 1 u.micron.

(** F(nu)=nu**(spectral index); nu is a Quantity. *)
Definition powerlaw_ex3 (nu : u.Quantity) : result R :=
  let spectral_index : Q := 0.25%Q in
  q <- u.to nu u.Hz u.spectral ;;
  Ok (u.value (u.pow q spectral_index)).

Definition flux_ex3_of (input_flux input_wave output_wave : u.Quantity)
  : result u.Quantity :=
  p_out <- powerlaw_ex3 output_wave ;;
  p_in <- powerlaw_ex3 input_wave ;;
  Ok (u.div_float (u.rmul p_out input_flux) p_in).

Definition output_wave_ex3 : u.Quantity := u.quantity 0.9 u.micron.
Definition flux_ex3 : result u.Quantity :=
  flux_ex3_of input_flux_ex3 input_wave_ex3 output_wave_ex3.

Definition imag_zpt : u.Quantity := u.quantity 2250 u.Jy.

Definition i_of (flux : u.Quantity) : result R :=
  x <- u.float (u.div flux imag_zpt) ;;
  l <- math.log10 x ;;
  Ok (-2.5 * l).

Definition i : result R := flux <- flux_ex3 ;; i_of flux.

End Notebook.
Import Notebook.

(* ===================================================================== *)
(** * Closed forms

    What the library calls of Example 2 compute, written out: these are the
    right-hand sides of the lemmas below, not part of the notebook. *)
(* ===================================================================== *)

Module Planck.

(** [h nu / (k_B T)] at the wavelength [w] Angstrom and [T] kelvin. *)
Definition log_boltz (w T : R) : R :=
  const.h * const.c / (w * 1e-10 * (const.k_B * T)).

(** Planck's law in photons / (cm2 s Angstrom). *)
Definition photlam (w T : R) : R :=
  2e-4 * const.c / ((w * 1e-10) * (w * 1e-10) * (w * 1e-10) * w * (exp (log_boltz w T) - 1)).

(** The value Example 2 computes, before any simplification. *)
Definition flux_ex2_closed : R :=
  photlam 6000 5500 * synphot.omega
  * (1 / (photlam 5000 5500 * synphot.omega))
  * (const.h * 1e7) * 6000.

(** [h nu / (k_B T)] at 3 micron and 5500 K: a sixth of its value at
    0.5 micron, a fifth of its value at 0.6 micron. *)
Definition t_ex2 : R := log_boltz 5000 5500 / 6.

End Planck.

Ltac unfold_units :=
  cbv [u.value_in u.quantity u.value u.unit u.scale u.mul_unit u.div_unit
       u.unit_mul u.unit_div syn_u.FNU syn_u.PHOTLAM u.f_nu u.phot_f_la
       u.J u.s u.Hz u.m u.cm u.AA u.K u.sr u.erg u.photon u.micron].

(* ===================================================================== *)
(** * Dimensions and conversions: basic facts *)
(* ===================================================================== *)

Lemma Qeq_bool_congr_l (a b x : Q) :
  Qeq_bool a b = true -> Qeq_bool a x = Qeq_bool b x.
Proof.
  intros Hab. apply Qeq_bool_iff in Hab.
  destruct (Qeq_bool b x) eqn:Hb.
  - apply Qeq_bool_iff. apply Qeq_bool_iff in Hb. now rewrite Hab.
  - destruct (Qeq_bool a x) eqn:Ha; [|reflexivity].
    apply Qeq_bool_iff in Ha. rewrite Hab in Ha.
    apply Qeq_bool_iff in Ha. congruence.
Qed.

Lemma Qeq_bool_sym (a b : Q) : Qeq_bool a b = Qeq_bool b a.
Proof.
  destruct (Qeq_bool b a) eqn:Hb.
  - apply Qeq_bool_iff. apply Qeq_bool_iff in Hb. now symmetry.
  - destruct (Qeq_bool a b) eqn:Ha; [|reflexivity].
    apply Qeq_bool_iff in Ha. symmetry in Ha.
    apply Qeq_bool_iff in Ha. congruence.
Qed.

Lemma dim_eqb_sym (a b : u.dimension) : u.dim_eqb a b = u.dim_eqb b a.
Proof.
  unfold u.dim_eqb.
  now rewrite (Qeq_bool_sym (u.d_kg a)), (Qeq_bool_sym (u.d_m a)),
    (Qeq_bool_sym (u.d_s a)), (Qeq_bool_sym (u.d_K a)),
    (Qeq_bool_sym (u.d_rad a)), (Qeq_bool_sym (u.d_ph a)).
Qed.

Lemma dim_eqb_congr_l (a b x : u.dimension) :
  u.dim_eqb a b = true -> u.dim_eqb a x = u.dim_eqb b x.
Proof.
  unfold u.dim_eqb. intros H.
  repeat (apply andb_true_iff in H; destruct H as [H ?]).
  now rewrite (Qeq_bool_congr_l (u.d_kg a) (u.d_kg b)),
    (Qeq_bool_congr_l (u.d_m a) (u.d_m b)),
    (Qeq_bool_congr_l (u.d_s a) (u.d_s b)),
    (Qeq_bool_congr_l (u.d_K a) (u.d_K b)),
    (Qeq_bool_congr_l (u.d_rad a) (u.d_rad b)),
    (Qeq_bool_congr_l (u.d_ph a) (u.d_ph b)).
Qed.

Lemma dim_eqb_refl (a : u.dimension) : u.dim_eqb a a = true.
Proof.
  unfold u.dim_eqb. repeat (apply andb_true_iff; split); apply Qeq_bool_iff; reflexivity.
Qed.

Lemma _to_dim (a b : u.Unit) :
  u.dim_eqb (u.dim a) (u.dim b) = true -> u._to a b = Ok (u.scale a / u.scale b).
Proof. intros H. unfold u._to. now rewrite H. Qed.

Lemma _to_not_dim (a b : u.Unit) :
  u.dim_eqb (u.dim a) (u.dim b) = false -> u._to a b = Raise UnitConversionError.
Proof. intros H. unfold u._to. now rewrite H. Qed.

Lemma to_value_scaling (q : u.Quantity) (un : u.Unit) (eqs : list u.Equivalency) :
  u.has_dim q un -> u.to_value q un eqs = Ok (u.value_in q un).
Proof. intros H. unfold u.to_value. now rewrite (_to_dim _ _ H). Qed.

(** A wavelength reaches hertz through the first entry of [u.spectral()]. *)
Lemma to_value_Hz_of_wavelength (lam : u.Quantity) :
  u.has_dim lam u.m ->
  u.to_value lam u.Hz u.spectral
  = Ok (const.c / (u.value lam / (1 / u.scale (u.unit lam))) * (1 / 1)).
Proof.
  intros H. unfold u.has_dim in H. unfold u.to_value.
  rewrite _to_not_dim by (rewrite (dim_eqb_congr_l _ _ _ H); reflexivity).
  unfold u.spectral, u._apply_equivalencies.
  cbv [u.funit u.tunit u.forward].
  rewrite (_to_dim u.m (u.unit lam)) by (rewrite dim_eqb_sym; exact H).
  rewrite (_to_dim u.Hz u.Hz) by reflexivity.
  reflexivity.
Qed.

Lemma np_power_pos (x p : R) : 0 < x -> np.power x p = Rpower x p.
Proof. intros H. unfold np.power. destruct (Rlt_dec 0 x); [reflexivity | contradiction]. Qed.

Lemma powerlaw_ex3_frequency (nu : u.Quantity) :
  u.has_dim nu u.Hz ->
  powerlaw_ex3 nu = Ok (np.power (u.value_in nu u.Hz) 0.25).
Proof.
  intros H. unfold powerlaw_ex3, u.to.
  rewrite (to_value_scaling _ _ _ H). cbn [py.bind u.pow u.value].
  reflexivity.
Qed.

Lemma powerlaw_ex3_wavelength (lam : u.Quantity) :
  u.has_dim lam u.m -> 0 < u.scale (u.unit lam) ->
  powerlaw_ex3 lam = Ok (np.power (const.c / u.value_in lam u.m) 0.25).
Proof.
  intros H Hs. unfold powerlaw_ex3, u.to.
  rewrite (to_value_Hz_of_wavelength _ H). cbn [py.bind u.pow u.value].
  change (Q2R 0.25) with 0.25. do 2 f_equal.
  unfold u.value_in. cbn [u.scale u.m]. unfold Rdiv.
  rewrite Rinv_1, !Rmult_1_l, !Rmult_1_r, Rinv_inv. reflexivity.
Qed.

(* ===================================================================== *)
(** * Example 3: the power law *)
(* ===================================================================== *)

(** C8.  [powerlaw_ex3] is the frequency raised to the spectral index 0.25:
    for a positive wavelength the frequency is [c / lambda] (in hertz,
    [lambda] in metres), and for a frequency it is the frequency in hertz. *)
Theorem C8_powerlaw_ex3_is_frequency_power :
  (forall lam : u.Quantity,
      u.has_dim lam u.m -> 0 < u.scale (u.unit lam) -> 0 < u.value lam ->
      powerlaw_ex3 lam = Ok (Rpower (const.c / u.value_in lam u.m) 0.25))
  /\
  (forall nu : u.Quantity,
      u.has_dim nu u.Hz ->
      powerlaw_ex3 nu = Ok (np.power (u.value_in nu u.Hz) 0.25)).
Proof.
  split.
  - intros lam Hd Hs Hv.
    rewrite (powerlaw_ex3_wavelength lam Hd Hs). f_equal.
    apply np_power_pos.
    unfold u.value_in, const.c. cbn [u.scale u.m].
    apply Rdiv_lt_0_compat; [lra|].
    apply Rmult_lt_0_compat; [exact Hv|].
    apply Rdiv_lt_0_compat; [exact Hs | lra].
  - exact powerlaw_ex3_frequency.
Qed.

Lemma C8_witness :
  powerlaw_ex3 (u.quantity 1 u.micron)
  = Ok (Rpower (const.c / u.value_in (u.quantity 1 u.micron) u.m) 0.25)
  /\ powerlaw_ex3 (u.quantity 3e14 u.Hz)
     = Ok (np.power (u.value_in (u.quantity 3e14 u.Hz) u.Hz) 0.25).
Proof.
  split.
  - apply (proj1 C8_powerlaw_ex3_is_frequency_power).
    + reflexivity.
    + cbn [u.quantity u.unit u.scale u.micron]. lra.
    + cbn [u.quantity u.value]. lra.
  - apply (proj2 C8_powerlaw_ex3_is_frequency_power). reflexivity.
Defined.



(** C10.  [powerlaw_ex3] returns a bare number, so the normalised flux of
    Example 3 carries the unit of the input flux: for every pair of
    wavelengths the computation succeeds with a quantity in that unit, and
    whatever the arguments, a returned flux has the unit of the input. *)
Theorem C10_flux_ex3_keeps_unit :
  (forall input_flux input_wave output_wave : u.Quantity,
      u.has_dim input_wave u.m -> u.has_dim output_wave u.m ->
      exists x : R,
        flux_ex3_of input_flux input_wave output_wave
        = Ok (u.mkQuantity x (u.unit input_flux)))
  /\
  (forall input_flux input_wave output_wave flux : u.Quantity,
      flux_ex3_of input_flux input_wave output_wave = Ok flux ->
      u.unit flux = u.unit input_flux).
Proof.
  split.
  - intros F win wout Hin Hout. unfold flux_ex3_of, powerlaw_ex3, u.to.
    rewrite (to_value_Hz_of_wavelength _ Hin), (to_value_Hz_of_wavelength _ Hout).
    cbn [py.bind]. eexists. reflexivity.
  - intros F win wout flux. unfold flux_ex3_of.
    destruct (powerlaw_ex3 wout) as [pout|]; [|discriminate].
    destruct (powerlaw_ex3 win) as [pin|]; [|discriminate].
    cbn [py.bind]. intros [= <-]. reflexivity.
Qed.

Lemma C10_witness :
  exists x : R,
    flux_ex3_of input_flux_ex3 input_wave_ex3 output_wave_ex3
    = Ok (u.mkQuantity x (u.unit input_flux_ex3)).
Proof.
  apply (proj1 C10_flux_ex3_keeps_unit); reflexivity.
Defined.

(* ===================================================================== *)
(** * Example 3: the I magnitude *)
(* ===================================================================== *)

Lemma dim_div_same (a b : u.dimension) :
  u.dim_eqb a b = true -> u.dim_eqb (u.dim_div a b) u.d0 = true.
Proof.
  unfold u.dim_eqb, u.dim_div, u.dim_map2. cbn [u.d_kg u.d_m u.d_s u.d_K u.d_rad u.d_ph u.d0].
  intros H.
  repeat (apply andb_true_iff in H; destruct H as [H ?]).
  repeat (apply andb_true_iff; split); apply Qeq_bool_iff;
    match goal with
    | E : Qeq_bool ?x ?y = true |- (?x - ?y == 0)%Q =>
        apply Qeq_bool_iff in E; rewrite E; ring
    end.
Qed.

(** The ratio to the zero point, as [float] sees it. *)
Lemma float_ratio_to_zero_point (flux : u.Quantity) :
  u.has_dim flux u.Jy ->
  u.float (u.div flux imag_zpt) = Ok (u.value_in flux u.Jy / u.value imag_zpt).
Proof.
  intros H. unfold u.float, u.to_value.
  rewrite _to_dim by (apply dim_div_same; exact H).
  f_equal. unfold u.value_in.
  cbn [u.div u.value u.unit u.unit_div u.scale imag_zpt u.quantity u.Jy u.dimensionless_unscaled].
  field.
Qed.

Lemma i_of_positive (flux : u.Quantity) :
  u.has_dim flux u.Jy -> 0 < u.value_in flux u.Jy ->
  i_of flux = Ok (-2.5 * np.log10 (u.value_in flux u.Jy / u.value imag_zpt)).
Proof.
  intros H Hpos. unfold i_of. rewrite (float_ratio_to_zero_point _ H).
  cbn [py.bind]. unfold math.log10.
  destruct (Rle_dec _ 0) as [Hle|_]; [|reflexivity].
  exfalso. cbn [imag_zpt u.quantity u.value] in Hle.
  apply (Rlt_irrefl 0). eapply Rlt_le_trans; [|exact Hle].
  apply Rdiv_lt_0_compat; lra.
Qed.

Lemma value_in_change_unit (q : u.Quantity) (a b : u.Unit) :
  0 < u.scale a -> 0 < u.scale b ->
  u.value_in q a = u.value_in q b * (u.scale b / u.scale a).
Proof. intros Ha Hb. unfold u.value_in. field. split; lra. Qed.

(** C5.  The I magnitude of a positive flux density is
    [-2.5 * log10 (flux / zero point)], flux and zero point (2250 Jy) taken
    in one flux unit, whichever it is. *)
Theorem C5_i_is_minus_2p5_log10_ratio (flux : u.Quantity) (un : u.Unit) :
  u.has_dim flux u.Jy -> 0 < u.scale (u.unit flux) -> 0 < u.value flux ->
  u.dim_eqb (u.dim un) (u.dim u.Jy) = true -> 0 < u.scale un ->
  i_of flux = Ok (-2.5 * np.log10 (u.value_in flux un / u.value_in imag_zpt un))
  /\ u.value_in imag_zpt u.Jy = 2250.
Proof.
  intros H Hs Hv Hun Hsun.
  assert (HJy : 0 < u.scale u.Jy) by (cbn [u.scale u.Jy]; lra).
  split.
  - rewrite i_of_positive; trivial.
    + do 3 f_equal.
      rewrite (value_in_change_unit flux un u.Jy), (value_in_change_unit imag_zpt un u.Jy)
        by assumption.
      assert (Hz : u.value_in imag_zpt u.Jy = u.value imag_zpt).
      { unfold u.value_in. cbn [imag_zpt u.quantity u.value u.unit u.scale u.Jy]. field. }
      rewrite Hz. cbn [imag_zpt u.quantity u.value]. field.
      split; [lra|]. apply Rgt_not_eq. apply Rdiv_lt_0_compat; lra.
    + unfold u.value_in. apply Rmult_lt_0_compat; [exact Hv|].
      apply Rdiv_lt_0_compat; lra.
  - unfold u.value_in. cbn [imag_zpt u.quantity u.value u.unit u.scale u.Jy]. field.
Qed.

Lemma C5_witness :
  i_of (u.quantity 1e-23 (u.W / (u.m * u.m * u.Hz))%unit)
  = Ok (-2.5 * np.log10
          (u.value_in (u.quantity 1e-23 (u.W / (u.m * u.m * u.Hz))%unit) u.Jy
           / u.value_in imag_zpt u.Jy))
  /\ u.value_in imag_zpt u.Jy = 2250.
Proof.
  apply (C5_i_is_minus_2p5_log10_ratio
           (u.quantity 1e-23 (u.W / (u.m * u.m * u.Hz))%unit) u.Jy).
  - reflexivity.
  - cbv [u.quantity u.unit u.scale u.unit_div u.unit_mul u.W u.m u.Hz]. lra.
  - cbn [u.quantity u.value]. lra.
  - reflexivity.
  - cbn [u.scale u.Jy]. lra.
Defined.

Lemma i_of_nonpositive (flux : u.Quantity) :
  u.has_dim flux u.Jy -> 0 < u.scale (u.unit flux) -> u.value flux <= 0 ->
  i_of flux = Raise ValueError.
Proof.
  intros H Hs Hv. unfold i_of. rewrite (float_ratio_to_zero_point _ H).
  cbn [py.bind]. unfold math.log10.
  destruct (Rle_dec _ 0) as [_|Hn]; [reflexivity|].
  exfalso. apply Hn. cbn [imag_zpt u.quantity u.value].
  unfold u.value_in. cbn [u.scale u.Jy].
  assert (Hk : 0 < u.scale (u.unit flux) / 1e-26) by (apply Rdiv_lt_0_compat; lra).
  assert (Hp : u.value flux * (u.scale (u.unit flux) / 1e-26) <= 0) by nra.
  lra.
Qed.

(** C7, as the code has it.  Converting a flux density that is zero or
    negative to an I magnitude fails with Python's [ValueError], raised by
    [math.log10]; no result is returned. *)
Theorem C7_nonpositive_flux_raises_ValueError (flux : u.Quantity) :
  u.has_dim flux u.Jy -> 0 < u.scale (u.unit flux) -> u.value flux <= 0 ->
  i_of flux = Raise ValueError /\ exn_class ValueError = "ValueError"%string.
Proof.
  intros H Hs Hv. split; [now apply i_of_nonpositive | reflexivity].
Qed.

Lemma C7_witness :
  i_of (u.quantity (-1) u.Jy) = Raise ValueError
  /\ exn_class ValueError = "ValueError"%string.
Proof.
  apply C7_nonpositive_flux_raises_ValueError.
  - reflexivity.
  - cbn [u.quantity u.unit u.scale u.Jy]. lra.
  - cbn [u.quantity u.value]. lra.
Defined.

(** C7, as stated, fails at the flux 0 Jy: the exception raised is not a
    [NonPositiveFluxError]. *)
Lemma C7_counterexample :
  ~ (i_of (u.quantity 0 u.Jy) = Raise (Exn "NonPositiveFluxError")).
Proof.
  rewrite i_of_nonpositive.
  - unfold ValueError. intros [=].
  - reflexivity.
  - cbn [u.quantity u.unit u.scale u.Jy]. lra.
  - cbn [u.quantity u.value]. lra.
Qed.

Lemma ABflux_scale_pos : 0 < u.scale u.ABflux.
Proof.
  cbn [u.ABflux u.scale]. apply Rmult_lt_0_compat.
  - rewrite np_power_pos by lra. apply exp_pos.
  - cbv [u.f_nu u.scale u.unit_div u.unit_mul u.erg u.Hz u.cm u.s]. lra.
Qed.

Lemma log10_1 : np.log10 1 = 0.
Proof. unfold np.log10. rewrite ln_1. unfold Rdiv. apply Rmult_0_l. Qed.

(** C9.  A flux equal to the zero point has magnitude 0: in the I system of
    Example 3 for every flux density worth 2250 Jy, whatever its unit, and
    in the AB system for the flux of one [ABflux]. *)
Theorem C9_zero_point_has_magnitude_zero :
  (forall flux : u.Quantity,
      u.has_dim flux u.Jy ->
      u.value_in flux u.Jy = u.value_in imag_zpt u.Jy ->
      i_of flux = Ok 0)
  /\ i_of imag_zpt = Ok 0
  /\ u.to_mag (u.quantity 1 u.ABflux) u.ABmag [] = Ok (u.mkMagnitude 0 u.ABmag).
Proof.
  assert (Hz : u.value_in imag_zpt u.Jy = 2250).
  { unfold u.value_in. cbn [imag_zpt u.quantity u.value u.unit u.scale u.Jy]. field. }
  assert (Hgen : forall flux : u.Quantity,
             u.has_dim flux u.Jy ->
             u.value_in flux u.Jy = u.value_in imag_zpt u.Jy -> i_of flux = Ok 0).
  { intros flux H Heq. rewrite i_of_positive by (trivial; lra).
    f_equal. rewrite Heq, Hz. cbn [imag_zpt u.quantity u.value].
    replace (2250 / 2250) with 1 by field. rewrite log10_1. ring. }
  split; [exact Hgen|]. split.
  - apply Hgen; reflexivity.
  - unfold u.to_mag. rewrite to_value_scaling by apply dim_eqb_refl.
    cbn [py.bind]. do 2 f_equal.
    unfold u.value_in, u.from_physical.
    cbn [u.physical_unit u.ABmag u.quantity u.value u.unit].
    replace (1 * (u.scale u.ABflux / u.scale u.ABflux)) with 1
      by (field; apply Rgt_not_eq, ABflux_scale_pos).
    rewrite log10_1. ring.
Qed.

Lemma C9_witness :
  i_of (u.quantity 2.25e-23 (u.W / (u.m * u.m * u.Hz))%unit) = Ok 0.
Proof.
  apply (proj1 C9_zero_point_has_magnitude_zero).
  - reflexivity.
  - unfold u.value_in.
    cbv [imag_zpt u.quantity u.value u.unit u.scale u.unit_div u.unit_mul u.W u.m u.Hz u.Jy].
    lra.
Defined.

(* ===================================================================== *)
(** * Example 3 end to end *)
(* ===================================================================== *)

(** Logarithms of 2 and 3 against the logarithm of 10, from integer powers. *)
Lemma ln_pow_lt (x y : R) (n k : nat) :
  0 < x -> 0 < y -> x ^ n < y ^ k -> INR n * ln x < INR k * ln y.
Proof.
  intros Hx Hy H. rewrite <- !ln_pow by assumption.
  apply ln_increasing; [apply pow_lt; exact Hx | exact H].
Qed.

Lemma pow_IZR_lt (a b : Z) (n k : nat) :
  (a ^ Z.of_nat n < b ^ Z.of_nat k)%Z -> IZR a ^ n < IZR b ^ k.
Proof. intros H. rewrite !pow_IZR. now apply IZR_lt. Qed.

Lemma ln2_lower : 3 * ln 10 < 10 * ln 2.
Proof.
  generalize (ln_pow_lt 10 2 3 10). simpl INR. intros H.
  assert (10 ^ 3 < 2 ^ 10) by (apply (pow_IZR_lt 10 2 3 10); reflexivity).
  lra.
Qed.
Lemma ln2_upper : 93 * ln 2 < 28 * ln 10.
Proof.
  generalize (ln_pow_lt 2 10 93 28). intros H.
  assert (2 ^ 93 < 10 ^ 28) by (apply (pow_IZR_lt 2 10 93 28); reflexivity).
  replace (INR 93) with 93 in H by (rewrite INR_IZR_INZ; reflexivity).
  replace (INR 28) with 28 in H by (rewrite INR_IZR_INZ; reflexivity).
  lra.
Qed.
Lemma ln3_lower : 10 * ln 10 < 21 * ln 3.
Proof.
  generalize (ln_pow_lt 10 3 10 21). intros H.
  assert (10 ^ 10 < 3 ^ 21) by (apply (pow_IZR_lt 10 3 10 21); reflexivity).
  replace (INR 10) with 10 in H by (rewrite INR_IZR_INZ; reflexivity).
  replace (INR 21) with 21 in H by (rewrite INR_IZR_INZ; reflexivity).
  lra.
Qed.
Lemma ln3_upper : 44 * ln 3 < 21 * ln 10.
Proof.
  generalize (ln_pow_lt 3 10 44 21). intros H.
  assert (3 ^ 44 < 10 ^ 21) by (apply (pow_IZR_lt 3 10 44 21); reflexivity).
  replace (INR 44) with 44 in H by (rewrite INR_IZR_INZ; reflexivity).
  replace (INR 21) with 21 in H by (rewrite INR_IZR_INZ; reflexivity).
  lra.
Qed.

Lemma Rpower_div_distr (a b q : R) :
  0 < a -> 0 < b -> Rpower a q / Rpower b q = Rpower (a / b) q.
Proof.
  intros Ha Hb. unfold Rdiv at 1.
  rewrite <- Rpower_Ropp. unfold Rpower.
  rewrite <- exp_plus. f_equal.
  unfold Rdiv. rewrite ln_mult, ln_Rinv; trivial.
  - ring.
  - now apply Rinv_0_lt_compat.
Qed.

Lemma flux_ex3_value :
  flux_ex3 = Ok (u.mkQuantity (Rpower (10 / 9) 0.25 * 1e-23) (u.unit input_flux_ex3)).
Proof.
  unfold flux_ex3, flux_ex3_of.
  rewrite (powerlaw_ex3_wavelength output_wave_ex3), (powerlaw_ex3_wavelength input_wave_ex3);
    try reflexivity; try (cbn [input_wave_ex3 output_wave_ex3 u.quantity u.unit u.scale u.micron]; lra).
  cbn [py.bind]. unfold u.div_float, u.rmul. cbn [u.value u.unit]. do 2 f_equal.
  unfold u.value_in.
  cbn [input_wave_ex3 output_wave_ex3 input_flux_ex3 u.quantity u.value u.unit u.scale u.micron u.m].
  unfold const.c.
  rewrite !np_power_pos by lra.
  replace (Rpower (299792458 / (0.9 * (1e-6 / 1))) 0.25 * 1e-23 /
           Rpower (299792458 / (1 * (1e-6 / 1))) 0.25)
    with (Rpower (299792458 / (0.9 * (1e-6 / 1))) 0.25 /
          Rpower (299792458 / (1 * (1e-6 / 1))) 0.25 * 1e-23).
  2:{ field. apply Rgt_not_eq, exp_pos. }
  rewrite Rpower_div_distr by lra.
  do 2 f_equal. lra.
Qed.

Lemma ln_ratio_ex3 :
  ln (Rpower (10 / 9) 0.25 * (4 / 9)) = 0.25 * ln 10 + 2 * ln 2 - 2.5 * ln 3.
Proof.
  rewrite ln_mult by (try apply exp_pos; lra).
  rewrite ln_Rpower.
  assert (H9 : ln 9 = 2 * ln 3).
  { replace 9 with (3 ^ 2) by lra. rewrite ln_pow by lra. simpl INR. ring. }
  assert (H4 : ln 4 = 2 * ln 2).
  { replace 4 with (2 ^ 2) by lra. rewrite ln_pow by lra. simpl INR. ring. }
  unfold Rdiv. rewrite !ln_mult, !ln_Rinv by (try apply Rinv_0_lt_compat; lra).
  rewrite H9, H4. lra.
Qed.

(** C3.  Example 3 end to end: a power law of index 0.25 through
    1e-23 W/m2/Hz at 1 micron, read at 0.9 micron and converted to the I
    system (zero point 2250 Jy), gives the magnitude 0.85 within 0.01. *)
Theorem C3_i_is_0p85 :
  exists v : R, i = Ok v /\ Rabs (v - 0.85) <= 0.01.
Proof.
  unfold i. rewrite flux_ex3_value. cbn [py.bind].
  assert (Hp : 0 < Rpower (10 / 9) 0.25) by apply exp_pos.
  assert (Hv : u.value_in (u.mkQuantity (Rpower (10 / 9) 0.25 * 1e-23) (u.unit input_flux_ex3)) u.Jy
               = Rpower (10 / 9) 0.25 * 1000).
  { unfold u.value_in.
    cbv [input_flux_ex3 u.quantity u.value u.unit u.scale u.unit_div u.unit_mul u.W u.m u.Hz u.Jy].
    lra. }
  rewrite i_of_positive; [|reflexivity|rewrite Hv; lra].
  eexists. split; [reflexivity|].
  rewrite Hv. cbn [imag_zpt u.quantity u.value].
  replace (Rpower (10 / 9) 0.25 * 1000 / 2250) with (Rpower (10 / 9) 0.25 * (4 / 9)) by lra.
  unfold np.log10. rewrite ln_ratio_ex3.
  pose proof ln2_lower. pose proof ln2_upper. pose proof ln3_lower. pose proof ln3_upper.
  assert (Hd : 0 < ln 10) by (rewrite <- ln_1; apply ln_increasing; lra).
  set (d := ln 10) in *. set (a := ln 2) in *. set (b := ln 3) in *.
  set (L := 0.25 * d + 2 * a - 2.5 * b).
  assert (HL : L / d * d = L) by (field; lra).
  apply Rabs_le. split.
  - assert (L / d <= -0.336); [|lra].
    apply Rnot_lt_le. intros Hc.
    assert (-0.336 * d < L / d * d) by (apply Rmult_lt_compat_r; assumption).
    unfold L in *. lra.
  - assert (-0.344 <= L / d); [|lra].
    apply Rnot_lt_le. intros Hc.
    assert (L / d * d < -0.344 * d) by (apply Rmult_lt_compat_r; assumption).
    unfold L in *. lra.
Qed.

(* ===================================================================== *)
(** * Example 1 end to end *)
(* ===================================================================== *)

Lemma ln_1e36 : ln (/ 10 ^ 36) = - 36 * ln 10.
Proof.
  rewrite ln_Rinv by (apply pow_lt; lra). rewrite ln_pow by lra.
  replace (INR 36) with 36 by (rewrite INR_IZR_INZ; reflexivity). ring.
Qed.

Lemma abmag_ex1_value : abmag_ex1 = Ok (u.mkMagnitude 41.4 u.ABmag).
Proof.
  unfold abmag_ex1, u.to_mag.
  rewrite to_value_scaling by reflexivity.
  cbn [py.bind]. do 2 f_equal.
  unfold u.value_in, u.from_physical.
  cbv [input_flux_ex1 u.physical_unit u.ABmag u.ABflux u.quantity u.value u.unit u.scale
       u.f_nu u.unit_div u.unit_mul u.erg u.Hz u.cm u.s u.Jy].
  rewrite np_power_pos by lra.
  set (P := Rpower 10 (48.6 / -2.5)).
  assert (HP : 0 < P) by apply exp_pos.
  replace (1e-13 * (1e-26 / (P * (1e-7 / 1 / (1e-2 * 1e-2) / 1))))
    with (/ 10 ^ 36 * / P) by (field; lra).
  unfold np.log10.
  rewrite ln_mult by (try apply Rinv_0_lt_compat; try apply pow_lt; lra).
  rewrite ln_1e36, ln_Rinv by assumption.
  unfold P. rewrite ln_Rpower.
  assert (Hd : 0 < ln 10) by (rewrite <- ln_1; apply ln_increasing; lra).
  replace (-36 * ln 10 + - (48.6 / -2.5 * ln 10)) with (-16.56 * ln 10) by lra.
  unfold Rdiv. rewrite Rmult_assoc, Rinv_r by lra. lra.
Qed.

(** C1, as the code has it.  Example 1 converts 1e-13 Jy to the AB
    magnitude 41.40 (within 0.01; the value is 41.4), the zero point of
    [u.ABmag] being [10.**(48.6/-2.5)] erg/cm2/s/Hz. *)
Theorem C1_abmag_ex1_is_41p40 :
  exists mag : u.Magnitude,
    abmag_ex1 = Ok mag /\ u.mag_unit mag = u.ABmag /\
    u.mag_value mag = 41.4 /\ Rabs (u.mag_value mag - 41.40) <= 0.01.
Proof.
  exists (u.mkMagnitude 41.4 u.ABmag). split; [exact abmag_ex1_value|].
  cbn [u.mag_unit u.mag_value]. repeat split.
  replace (41.4 - 41.40) with 0 by lra. rewrite Rabs_R0. lra.
Qed.

(** C1, as stated, fails: the magnitude computed is not within 0.01 of the
    41.43 that the form printed. *)
Lemma C1_counterexample :
  ~ (exists mag : u.Magnitude,
        abmag_ex1 = Ok mag /\ Rabs (u.mag_value mag - 41.43) <= 0.01).
Proof.
  intros [mag [Hm Habs]]. rewrite abmag_ex1_value in Hm.
  injection Hm as <-. cbn [u.mag_value] in Habs.
  unfold Rabs in Habs. destruct (Rcase_abs _) in Habs; lra.
Qed.

(* ===================================================================== *)
(** * Example 2: the blackbody *)
(* ===================================================================== *)

Lemma expm1_pos (x : R) : 0 < x -> 0 < exp x - 1.
Proof. intros H. pose proof (exp_ineq1 x). lra. Qed.

Lemma log_boltz_pos (w T : R) : 0 < w -> 0 < T -> 0 < Planck.log_boltz w T.
Proof.
  intros Hw HT. unfold Planck.log_boltz, const.h, const.c, const.k_B.
  apply Rdiv_lt_0_compat; [lra|].
  assert (0 < w * 1e-10) by lra. assert (0 < 1.380649e-23 * T) by lra. nra.
Qed.

Lemma BlackBody1D_evaluate_planck (w T : R) :
  0 < w -> 0 < T ->
  synphot.BlackBody1D_evaluate w T = Ok (Planck.photlam w T).
Proof.
  intros Hw HT. unfold synphot.BlackBody1D_evaluate, synphot.blackbody_nu.
  rewrite to_value_Hz_of_wavelength by reflexivity.
  rewrite to_value_scaling by reflexivity.
  cbn [py.bind].
  destruct (Rlt_dec _ 0) as [Hneg|_].
  { exfalso. revert Hneg. unfold_units. lra. }
  unfold u.to. rewrite to_value_scaling by reflexivity.
  cbn [py.bind].
  unfold u.to_value. rewrite _to_not_dim by reflexivity.
  unfold u.spectral_density, u._apply_equivalencies.
  cbv [u.funit u.tunit u.forward u.backward].
  repeat (first [rewrite _to_not_dim by reflexivity | rewrite _to_dim by reflexivity]).
  unfold u.make_converter. rewrite to_value_scaling by reflexivity. cbn [py.bind].
  f_equal. unfold np.expm1. unfold_units.
  match goal with
  | |- context [exp ?a] =>
      replace a with (Planck.log_boltz w T)
        by (unfold Planck.log_boltz, const.h, const.c, const.k_B; field; lra)
  end.
  unfold Planck.photlam.
  pose proof (expm1_pos _ (log_boltz_pos w T Hw HT)) as HE.
  set (E := exp (Planck.log_boltz w T)) in *.
  unfold const.h, const.c. field. lra.
Qed.

Lemma omega_pos : 0 < synphot.omega.
Proof.
  unfold synphot.omega, const.R_sun, const.kpc.
  apply Rmult_lt_0_compat; [apply PI_RGT_0 | lra].
Qed.

Lemma photlam_pos (w T : R) : 0 < w -> 0 < T -> 0 < Planck.photlam w T.
Proof.
  intros Hw HT. unfold Planck.photlam.
  pose proof (expm1_pos _ (log_boltz_pos w T Hw HT)) as HE.
  apply Rdiv_lt_0_compat; [unfold const.c; lra|].
  assert (H1 : 0 < w * 1e-10) by lra.
  apply Rmult_lt_0_compat; [|exact HE].
  apply Rmult_lt_0_compat; [|exact Hw].
  apply Rmult_lt_0_compat; [apply Rmult_lt_0_compat|]; exact H1.
Qed.

Lemma call_blackbody (T : R) (lam : u.Quantity) :
  u.has_dim lam u.m -> 0 < u.value_in lam u.AA -> 0 < T ->
  synphot.call (synphot.mkSourceSpectrum (synphot.BlackBodyNorm1D T)) lam None
  = Ok (u.quantity (Planck.photlam (u.value_in lam u.AA) T * synphot.omega) syn_u.PHOTLAM).
Proof.
  intros H Hw HT. unfold synphot.call.
  rewrite to_value_scaling by exact H.
  cbn [py.bind synphot.model synphot.evaluate].
  unfold synphot.BlackBodyNorm1D_evaluate.
  rewrite BlackBody1D_evaluate_planck by assumption.
  reflexivity.
Qed.

Lemma PHOTLAM_ratio_dimensionless (a b : u.Quantity) :
  u.unit a = syn_u.PHOTLAM -> u.unit b = syn_u.PHOTLAM ->
  u._to (u.unit (u.div a b)) u.dimensionless_unscaled = Ok 1.
Proof.
  intros Ha Hb. cbn [u.div u.unit]. rewrite Ha, Hb.
  rewrite _to_dim by reflexivity. f_equal.
  cbv [u.scale u.unit_div u.unit_mul syn_u.PHOTLAM u.dimensionless_unscaled
       u.photon u.cm u.s u.AA]. lra.
Qed.

Lemma bb_ex2_value :
  bb_ex2 = Ok (synphot.mkSourceSpectrum (synphot.BlackBodyNorm1D 5500)).
Proof.
  unfold bb_ex2, bb_ex2_of, synphot.SourceSpectrum_BlackBodyNorm1D.
  rewrite to_value_scaling by reflexivity. cbn [py.bind]. do 3 f_equal.
  unfold_units. lra.
Qed.

Lemma input_wave_ex2_AA : u.value_in input_wave_ex2 u.AA = 5000.
Proof. unfold input_wave_ex2. unfold_units. lra. Qed.

Lemma output_wave_ex2_AA : u.value_in output_wave_ex2 u.AA = 6000.
Proof. unfold output_wave_ex2. unfold_units. lra. Qed.

Lemma input_ex2_value :
  input_ex2
  = Ok (synphot.mkSourceSpectrum
          (synphot.Scaled (synphot.BlackBodyNorm1D 5500)
             (1 / (Planck.photlam 5000 5500 * synphot.omega)))).
Proof.
  unfold input_ex2. rewrite bb_ex2_value. cbn [py.bind].
  unfold input_ex2_of, factor_ex2_of.
  rewrite call_blackbody; [|reflexivity|rewrite input_wave_ex2_AA; lra|lra].
  cbn [py.bind]. unfold synphot.mul.
  rewrite PHOTLAM_ratio_dimensionless by reflexivity.
  destruct (Req_dec_T 1 1) as [_|Hne]; [|now contradiction Hne].
  rewrite input_wave_ex2_AA. reflexivity.
Qed.

Lemma flux_ex2_value : flux_ex2 = Ok (u.mkQuantity Planck.flux_ex2_closed syn_u.FNU).
Proof.
  unfold flux_ex2. rewrite input_ex2_value. cbn [py.bind].
  unfold flux_ex2_of, synphot.call.
  rewrite to_value_scaling by reflexivity. rewrite output_wave_ex2_AA.
  cbn [py.bind synphot.model synphot.evaluate].
  unfold synphot.BlackBodyNorm1D_evaluate.
  rewrite BlackBody1D_evaluate_planck by lra.
  cbn [py.bind]. unfold syn_u.convert_flux, u.to, u.to_value.
  rewrite _to_not_dim by reflexivity.
  unfold u.spectral_density, u._apply_equivalencies.
  cbv [u.funit u.tunit u.forward u.backward].
  repeat (first [rewrite _to_not_dim by reflexivity | rewrite _to_dim by reflexivity]).
  unfold u.make_converter. rewrite to_value_scaling by reflexivity. cbn [py.bind].
  do 2 f_equal. unfold Planck.flux_ex2_closed. unfold_units.
  set (P6 := Planck.photlam 6000 5500). set (P5 := Planck.photlam 5000 5500).
  set (om := synphot.omega). unfold const.h. lra.
Qed.

(** exp against powers *)
Lemma exp_INR_mult (n : nat) (s : R) : exp (INR n * s) = exp s ^ n.
Proof.
  induction n as [|n IH].
  - simpl. rewrite Rmult_0_l. apply exp_0.
  - rewrite S_INR, Rmult_plus_distr_r, Rmult_1_l, exp_plus, IH. simpl. ring.
Qed.

Lemma pow_le_exp (n : nat) (s : R) : 0 <= 1 + s -> (1 + s) ^ n <= exp (INR n * s).
Proof.
  intros H. rewrite exp_INR_mult. apply pow_incr. split; [exact H | apply exp_ineq1_le].
Qed.

Lemma exp_le_compat (x y : R) : x <= y -> exp x <= exp y.
Proof.
  intros [H|H]; [left; now apply exp_increasing | subst; right; reflexivity].
Qed.

Lemma t_ex2_bounds : 0.87198 <= Planck.t_ex2 <= 0.87199.
Proof. unfold Planck.t_ex2, Planck.log_boltz, const.h, const.c, const.k_B. lra. Qed.

Lemma exp_t_ex2_lower : 2.388 <= exp Planck.t_ex2.
Proof.
  apply Rle_trans with (exp 0.87198); [|apply exp_le_compat, t_ex2_bounds].
  apply Rle_trans with ((1 + 0.87198 / 256) ^ 256); [lra|].
  replace 0.87198 with (INR 256 * (0.87198 / 256)) at 2
    by (rewrite INR_IZR_INZ; change (IZR (Z.of_nat 256)) with 256; lra).
  apply pow_le_exp. lra.
Qed.

Lemma exp_t_ex2_upper : exp Planck.t_ex2 <= 2.3953.
Proof.
  apply Rle_trans with (exp 0.87199); [apply exp_le_compat, t_ex2_bounds|].
  assert (Hl : (1 + - 0.87199 / 256) ^ 256 <= exp (- 0.87199)).
  { replace (- 0.87199) with (INR 256 * (- 0.87199 / 256)) at 2
      by (rewrite INR_IZR_INZ; change (IZR (Z.of_nat 256)) with 256; lra).
    apply pow_le_exp. lra. }
  assert (Hn : 1 / 2.3953 <= (1 + - 0.87199 / 256) ^ 256) by lra.
  pose proof (exp_pos 0.87199) as Hp.
  assert (He : exp 0.87199 * exp (- 0.87199) = 1).
  { rewrite <- exp_plus. replace (0.87199 + - 0.87199) with 0 by lra. apply exp_0. }
  assert (Hm : 1 / 2.3953 <= exp (- 0.87199)) by lra.
  assert (exp 0.87199 * (1 / 2.3953) <= exp 0.87199 * exp (- 0.87199))
    by (apply Rmult_le_compat_l; lra).
  lra.
Qed.

Lemma flux_ex2_closed_in_exp :
  let v := exp Planck.t_ex2 in
  Planck.flux_ex2_closed
  = const.h * 1e7 * 6000 * (5 / 6) ^ 4 * (v + 1 / (1 + v + v ^ 2 + v ^ 3 + v ^ 4)).
Proof.
  intros v. unfold Planck.flux_ex2_closed, Planck.photlam.
  replace (Planck.log_boltz 5000 5500) with (INR 6 * Planck.t_ex2)
    by (unfold Planck.t_ex2; simpl INR; lra).
  replace (Planck.log_boltz 6000 5500) with (INR 5 * Planck.t_ex2)
    by (unfold Planck.t_ex2, Planck.log_boltz, const.h, const.c, const.k_B; simpl INR; lra).
  rewrite !exp_INR_mult. fold v.
  pose proof exp_t_ex2_lower as Hlo. fold v in Hlo.
  pose proof omega_pos as Hom. set (om := synphot.omega) in *.
  assert (H2 : 4 <= v * v) by nra.
  assert (H3 : 8 <= v * v * v) by nra.
  assert (H4 : 16 <= v * v * v * v) by nra.
  assert (H5 : 32 <= v * v * v * v * v) by nra.
  assert (H6 : 64 <= v * v * v * v * v * v) by nra.
  unfold const.h, const.c. field.
  repeat split; try lra; simpl; nra.
Qed.

(** C2.  Example 2 end to end: the blackbody of 5500 K, normalised to
    1 PHOTLAM at 0.5 micron and read at 0.6 micron in FNU, gives
    4.62e-23 erg/cm2/s/Hz within 1 percent. *)
Theorem C2_flux_ex2_is_4p62em23 :
  exists flux : u.Quantity,
    flux_ex2 = Ok flux /\ u.unit flux = syn_u.FNU /\
    Rabs (u.value flux - 4.62e-23) <= 0.01 * 4.62e-23.
Proof.
  exists (u.mkQuantity Planck.flux_ex2_closed syn_u.FNU).
  split; [exact flux_ex2_value|]. split; [reflexivity|].
  cbn [u.value]. rewrite flux_ex2_closed_in_exp. cbv zeta.
  pose proof exp_t_ex2_lower as Hlo. pose proof exp_t_ex2_upper as Hhi.
  set (v := exp Planck.t_ex2) in *.
  assert (L2 : 5.7025 <= v ^ 2 <= 5.7375) by (simpl; nra).
  assert (L3 : 13.6175 <= v ^ 3 <= 13.7431).
  { replace (v ^ 3) with (v ^ 2 * v) by ring. nra. }
  assert (L4 : 32.5185 <= v ^ 4 <= 32.9189).
  { replace (v ^ 4) with (v ^ 3 * v) by ring. nra. }
  set (S := 1 + v + v ^ 2 + v ^ 3 + v ^ 4) in *.
  assert (HS : 55.22 <= S <= 55.80) by (unfold S; lra).
  assert (Hr : 1 / 55.80 <= 1 / S <= 1 / 55.22).
  { unfold Rdiv. rewrite !Rmult_1_l.
    split; apply Rinv_le_contravar; lra. }
  set (r := 1 / S) in *.
  apply Rabs_le. unfold const.h. lra.
Qed.

(* ===================================================================== *)
(** * Normalisation *)
(* ===================================================================== *)



(* ===================================================================== *)
(** * Further properties: the power law of Example 3 *)
(* ===================================================================== *)



(** X2.  [powerlaw_ex3] sees the physical frequency only: a positive
    wavelength and a frequency that describe the same light
    ([lambda * nu = c]), in whatever units, get the same value. *)
Theorem X2_powerlaw_ex3_same_light (lam nu : u.Quantity) :
  u.has_dim lam u.m -> 0 < u.scale (u.unit lam) -> 0 < u.value lam ->
  u.has_dim nu u.Hz ->
  u.value_in lam u.m * u.value_in nu u.Hz = const.c ->
  powerlaw_ex3 lam = powerlaw_ex3 nu.
Proof.
  intros Hl Hs Hv Hn Hc.
  rewrite (powerlaw_ex3_wavelength lam Hl Hs), (powerlaw_ex3_frequency nu Hn).
  do 2 f_equal.
  assert (Hpos : 0 < u.value_in lam u.m).
  { unfold u.value_in. cbn [u.scale u.m]. apply Rmult_lt_0_compat; [exact Hv|].
    apply Rdiv_lt_0_compat; [exact Hs | lra]. }
  rewrite <- Hc. field. lra.
Qed.

Lemma X2_witness :
  powerlaw_ex3 (u.quantity 1 u.micron) = powerlaw_ex3 (u.quantity 299792458e6 u.Hz).
Proof.
  apply X2_powerlaw_ex3_same_light.
  - reflexivity.
  - cbn [u.quantity u.unit u.scale u.micron]. lra.
  - cbn [u.quantity u.value]. lra.
  - reflexivity.
  - unfold const.c. unfold_units. lra.
Defined.

(** A photon energy reaches hertz through the third entry of
    [u.spectral()]. *)
Lemma to_value_Hz_of_energy (e : u.Quantity) :
  u.has_dim e u.J ->
  u.to_value e u.Hz u.spectral
  = Ok (u.value e / (1 / u.scale (u.unit e)) / const.h * (1 / 1)).
Proof.
  intros H. unfold u.has_dim in H. unfold u.to_value.
  rewrite _to_not_dim by (rewrite (dim_eqb_congr_l _ _ _ H); reflexivity).
  unfold u.spectral, u._apply_equivalencies.
  cbv [u.funit u.tunit u.forward u.backward].
  rewrite (_to_not_dim u.m (u.unit e))
    by (rewrite dim_eqb_sym, (dim_eqb_congr_l _ _ _ H); reflexivity).
  rewrite (_to_not_dim u.Hz (u.unit e))
    by (rewrite dim_eqb_sym, (dim_eqb_congr_l _ _ _ H); reflexivity).
  rewrite (_to_dim u.J (u.unit e)) by (rewrite dim_eqb_sym; exact H).
  rewrite (_to_not_dim u.m u.Hz) by reflexivity.
  rewrite (_to_dim u.Hz u.Hz) by reflexivity.
  reflexivity.
Qed.

(** X3.  Given a photon energy, [powerlaw_ex3] raises the frequency
    [E / h] to the power 0.25. *)
Theorem X3_powerlaw_ex3_of_energy (e : u.Quantity) :
  u.has_dim e u.J -> 0 < u.scale (u.unit e) ->
  powerlaw_ex3 e = Ok (np.power (u.value_in e u.J / const.h) 0.25).
Proof.
  intros H Hs. unfold powerlaw_ex3, u.to.
  rewrite (to_value_Hz_of_energy _ H). cbn [py.bind u.pow u.value].
  change (Q2R 0.25) with 0.25. do 2 f_equal.
  unfold u.value_in, const.h. cbn [u.scale u.J]. field. lra.
Qed.

Lemma X3_witness :
  powerlaw_ex3 (u.quantity 1 u.erg)
  = Ok (np.power (u.value_in (u.quantity 1 u.erg) u.J / const.h) 0.25).
Proof.
  apply X3_powerlaw_ex3_of_energy.
  - reflexivity.
  - cbn [u.quantity u.unit u.scale u.erg]. lra.
Defined.

Lemma value_in_m_pos (lam : u.Quantity) :
  0 < u.scale (u.unit lam) -> 0 < u.value lam -> 0 < u.value_in lam u.m.
Proof.
  intros Hs Hv. unfold u.value_in. cbn [u.scale u.m].
  apply Rmult_lt_0_compat; [exact Hv|]. apply Rdiv_lt_0_compat; [exact Hs | lra].
Qed.

Lemma powerlaw_ex3_wavelength_Rpower (lam : u.Quantity) :
  u.has_dim lam u.m -> 0 < u.scale (u.unit lam) -> 0 < u.value lam ->
  powerlaw_ex3 lam = Ok (Rpower (const.c / u.value_in lam u.m) 0.25).
Proof.
  intros H Hs Hv. rewrite (powerlaw_ex3_wavelength lam H Hs). f_equal.
  apply np_power_pos. apply Rdiv_lt_0_compat; [unfold const.c; lra|].
  now apply value_in_m_pos.
Qed.

(** X4.  The flux of Example 3 in closed form: for positive wavelengths the
    output flux is the input flux times
    [(input wavelength / output wavelength) ** 0.25], in the unit of the
    input flux; only the ratio of the two wavelengths matters, not their
    units. *)
Theorem X4_flux_ex3_closed_form (input_flux input_wave output_wave : u.Quantity) :
  u.has_dim input_wave u.m -> 0 < u.scale (u.unit input_wave) -> 0 < u.value input_wave ->
  u.has_dim output_wave u.m -> 0 < u.scale (u.unit output_wave) -> 0 < u.value output_wave ->
  flux_ex3_of input_flux input_wave output_wave
  = Ok (u.mkQuantity
          (u.value input_flux
           * Rpower (u.value_in input_wave u.m / u.value_in output_wave u.m) 0.25)
          (u.unit input_flux)).
Proof.
  intros Hi Hsi Hvi Ho Hso Hvo. unfold flux_ex3_of.
  rewrite (powerlaw_ex3_wavelength_Rpower output_wave Ho Hso Hvo).
  rewrite (powerlaw_ex3_wavelength_Rpower input_wave Hi Hsi Hvi).
  cbn [py.bind]. unfold u.div_float, u.rmul. cbn [u.value u.unit]. do 2 f_equal.
  pose proof (value_in_m_pos _ Hsi Hvi) as Hpi.
  pose proof (value_in_m_pos _ Hso Hvo) as Hpo.
  set (a := u.value_in input_wave u.m) in *.
  set (b := u.value_in output_wave u.m) in *.
  assert (Hc : 0 < const.c) by (unfold const.c; lra).
  replace (a / b) with ((const.c / b) / (const.c / a)) by (field; lra).
  rewrite <- (Rpower_div_distr (const.c / b) (const.c / a))
    by (apply Rdiv_lt_0_compat; lra).
  field. apply Rgt_not_eq, exp_pos.
Qed.

Lemma X4_witness :
  flux_ex3_of input_flux_ex3 input_wave_ex3 output_wave_ex3
  = Ok (u.mkQuantity
          (u.value input_flux_ex3
           * Rpower (u.value_in input_wave_ex3 u.m / u.value_in output_wave_ex3 u.m) 0.25)
          (u.unit input_flux_ex3)).
Proof.
  apply X4_flux_ex3_closed_form.
  - reflexivity.
  - cbn [input_wave_ex3 u.quantity u.unit u.scale u.micron]. lra.
  - cbn [input_wave_ex3 u.quantity u.value]. lra.
  - reflexivity.
  - cbn [output_wave_ex3 u.quantity u.unit u.scale u.micron]. lra.
  - cbn [output_wave_ex3 u.quantity u.value]. lra.
Defined.

(** X5.  Renormalising composes: carrying a flux from [w1] to [w2] and the
    result from [w2] to [w3] is carrying it from [w1] to [w3], provided the
    power law is not zero at [w2]. *)
Theorem X5_flux_ex3_composes (input_flux w1 w2 w3 : u.Quantity) (p1 p2 p3 : R) :
  powerlaw_ex3 w1 = Ok p1 -> powerlaw_ex3 w2 = Ok p2 -> powerlaw_ex3 w3 = Ok p3 ->
  p2 <> 0 ->
  (flux <- flux_ex3_of input_flux w1 w2 ;; flux_ex3_of flux w2 w3)
  = flux_ex3_of input_flux w1 w3.
Proof.
  intros H1 H2 H3 Hne. unfold flux_ex3_of. rewrite H1, H2, H3. cbn [py.bind].
  unfold u.div_float, u.rmul. cbn [u.value u.unit]. do 2 f_equal.
  unfold Rdiv. rewrite <- !Rmult_assoc.
  replace (p3 * p2 * u.value input_flux * / p1 * / p2)
    with (p3 * u.value input_flux * / p1 * (p2 * / p2)) by ring.
  rewrite Rinv_r by exact Hne. ring.
Qed.

Lemma X5_witness :
  (flux <- flux_ex3_of input_flux_ex3 input_wave_ex3 output_wave_ex3 ;;
   flux_ex3_of flux output_wave_ex3 input_wave_ex3)
  = flux_ex3_of input_flux_ex3 input_wave_ex3 input_wave_ex3.
Proof.
  apply (X5_flux_ex3_composes input_flux_ex3 input_wave_ex3 output_wave_ex3 input_wave_ex3
           (Rpower (const.c / u.value_in input_wave_ex3 u.m) 0.25)
           (Rpower (const.c / u.value_in output_wave_ex3 u.m) 0.25)
           (Rpower (const.c / u.value_in input_wave_ex3 u.m) 0.25)).
  - apply powerlaw_ex3_wavelength_Rpower;
      [reflexivity | cbn [input_wave_ex3 u.quantity u.unit u.scale u.micron]; lra
       | cbn [input_wave_ex3 u.quantity u.value]; lra].
  - apply powerlaw_ex3_wavelength_Rpower;
      [reflexivity | cbn [output_wave_ex3 u.quantity u.unit u.scale u.micron]; lra
       | cbn [output_wave_ex3 u.quantity u.value]; lra].
  - apply powerlaw_ex3_wavelength_Rpower;
      [reflexivity | cbn [input_wave_ex3 u.quantity u.unit u.scale u.micron]; lra
       | cbn [input_wave_ex3 u.quantity u.value]; lra].
  - apply Rgt_not_eq, exp_pos.
Defined.

(* ===================================================================== *)
(** * Further properties: the I magnitude of Example 3 *)
(* ===================================================================== *)

Lemma Qeq_bool_minus_0 (a b : Q) : Qeq_bool (a - b) 0 = Qeq_bool a b.
Proof.
  destruct (Qeq_bool a b) eqn:Hab.
  - apply Qeq_bool_iff. apply Qeq_bool_iff in Hab. rewrite Hab. ring.
  - destruct (Qeq_bool (a - b) 0) eqn:Hd; [|reflexivity].
    apply Qeq_bool_iff in Hd.
    assert (Heq : (a == b)%Q).
    { setoid_replace a with ((a - b) + b)%Q by ring. rewrite Hd. ring. }
    apply Qeq_bool_iff in Heq. congruence.
Qed.

Lemma dim_div_d0 (a b : u.dimension) :
  u.dim_eqb (u.dim_div a b) u.d0 = u.dim_eqb a b.
Proof.
  unfold u.dim_eqb, u.dim_div, u.dim_map2.
  cbn [u.d_kg u.d_m u.d_s u.d_K u.d_rad u.d_ph u.d0].
  now rewrite !Qeq_bool_minus_0.
Qed.

(** X6.  The I magnitude is defined for flux densities per frequency only:
    for a quantity of another dimension the ratio to [imag_zpt] is not
    dimensionless and [math.log10] fails with [TypeError]. *)
Theorem X6_i_rejects_other_dimensions (flux : u.Quantity) :
  u.dim_eqb (u.dim (u.unit flux)) (u.dim u.Jy) = false ->
  i_of flux = Raise TypeError.
Proof.
  intros H. unfold i_of, u.float, u.to_value.
  rewrite _to_not_dim.
  - reflexivity.
  - cbn [u.div u.unit u.unit_div u.dim u.dimensionless_unscaled imag_zpt u.quantity].
    rewrite dim_div_d0. exact H.
Qed.

Lemma X6_witness : i_of (u.quantity 1 syn_u.PHOTLAM) = Raise TypeError.
Proof. apply X6_i_rejects_other_dimensions. reflexivity. Defined.

Lemma ln_10_pos : 0 < ln 10.
Proof. rewrite <- ln_1. apply ln_increasing; lra. Qed.

Lemma value_in_Jy_pos (flux : u.Quantity) :
  0 < u.scale (u.unit flux) -> 0 < u.value flux -> 0 < u.value_in flux u.Jy.
Proof.
  intros Hs Hv. unfold u.value_in. cbn [u.scale u.Jy].
  apply Rmult_lt_0_compat; [exact Hv|]. apply Rdiv_lt_0_compat; [exact Hs | lra].
Qed.

(** X7.  Pogson's rule: multiplying a positive flux by [k > 0] lowers its
    I magnitude by [2.5 * log10 k]; a flux 100 times larger is 5 magnitudes
    brighter. *)
Theorem X7_i_of_scaled_flux (flux : u.Quantity) (k : R) :
  u.has_dim flux u.Jy -> 0 < u.scale (u.unit flux) -> 0 < u.value flux -> 0 < k ->
  exists mag : R,
    i_of flux = Ok mag /\
    i_of (u.rmul k flux) = Ok (mag - 2.5 * np.log10 k) /\
    i_of (u.rmul 100 flux) = Ok (mag - 5).
Proof.
  intros H Hs Hv Hk.
  pose proof (value_in_Jy_pos flux Hs Hv) as Hpos.
  assert (Hscaled : forall c : R, 0 < c ->
            i_of (u.rmul c flux)
            = Ok (-2.5 * np.log10 (u.value_in flux u.Jy / u.value imag_zpt)
                  - 2.5 * np.log10 c)).
  { intros c Hc.
    rewrite i_of_positive.
    - f_equal. unfold np.log10.
      replace (u.value_in (u.rmul c flux) u.Jy / u.value imag_zpt)
        with (c * (u.value_in flux u.Jy / u.value imag_zpt))
        by (unfold u.value_in, u.rmul; cbn [u.value u.unit]; unfold Rdiv; ring).
      rewrite ln_mult;
        [| exact Hc
         | cbn [imag_zpt u.quantity u.value]; apply Rdiv_lt_0_compat; lra].
      unfold Rdiv. rewrite Rmult_plus_distr_r. lra.
    - exact H.
    - apply value_in_Jy_pos; [exact Hs|]. cbn [u.rmul u.value].
      now apply Rmult_lt_0_compat. }
  exists (-2.5 * np.log10 (u.value_in flux u.Jy / u.value imag_zpt)).
  split; [now apply i_of_positive|]. split.
  - now apply Hscaled.
  - rewrite Hscaled by lra. f_equal.
    assert (H100 : np.log10 100 = 2).
    { unfold np.log10. replace 100 with (10 ^ 2) by lra.
      rewrite ln_pow by lra. simpl INR. pose proof ln_10_pos. field. lra. }
    rewrite H100. lra.
Qed.

Lemma X7_witness :
  exists mag : R,
    i_of imag_zpt = Ok mag /\
    i_of (u.rmul 2 imag_zpt) = Ok (mag - 2.5 * np.log10 2) /\
    i_of (u.rmul 100 imag_zpt) = Ok (mag - 5).
Proof.
  apply X7_i_of_scaled_flux.
  - reflexivity.
  - cbn [imag_zpt u.quantity u.unit u.scale u.Jy]. lra.
  - cbn [imag_zpt u.quantity u.value]. lra.
  - lra.
Defined.



(** X9.  The flux is recovered from the magnitude: whenever the I magnitude
    [mag] is returned, the flux is [2250 * 10 ** (-mag / 2.5)] Jy. *)
Theorem X9_flux_from_i (flux : u.Quantity) (mag : R) :
  i_of flux = Ok mag ->
  u.has_dim flux u.Jy /\
  u.value_in flux u.Jy = u.value imag_zpt * Rpower 10 (- mag / 2.5).
Proof.
  intros Hi.
  destruct (u.dim_eqb (u.dim (u.unit flux)) (u.dim u.Jy)) eqn:Hd.
  2:{ exfalso. revert Hi. unfold i_of, u.float, u.to_value.
      rewrite _to_not_dim; [discriminate|].
      cbn [u.div u.unit u.unit_div u.dim u.dimensionless_unscaled imag_zpt u.quantity].
      rewrite dim_div_d0. exact Hd. }
  split; [exact Hd|].
  unfold i_of in Hi. rewrite (float_ratio_to_zero_point flux Hd) in Hi.
  cbn [py.bind] in Hi. unfold math.log10 in Hi.
  destruct (Rle_dec _ 0) as [|Hpos]; [discriminate|].
  cbn [py.bind] in Hi. injection Hi as <-.
  apply Rnot_le_lt in Hpos.
  change (u.value imag_zpt) with 2250 in *.
  set (x := u.value_in flux u.Jy / 2250) in *.
  pose proof ln_10_pos as Hd10.
  replace (- (-2.5 * (ln x / ln 10)) / 2.5) with (ln x / ln 10) by lra.
  unfold Rpower. replace (ln x / ln 10 * ln 10) with (ln x) by (field; lra).
  rewrite exp_ln by exact Hpos.
  unfold x. field.
Qed.

Lemma i_of_imag_zpt : i_of imag_zpt = Ok 0.
Proof.
  rewrite i_of_positive.
  - f_equal. unfold u.value_in. cbn [imag_zpt u.quantity u.value u.unit u.scale u.Jy].
    replace (2250 * (1e-26 / 1e-26) / 2250) with 1 by lra.
    rewrite log10_1. ring.
  - reflexivity.
  - unfold imag_zpt, u.Jy. unfold_units. lra.
Qed.

Lemma X9_witness :
  u.has_dim imag_zpt u.Jy /\
  u.value_in imag_zpt u.Jy = u.value imag_zpt * Rpower 10 (- 0 / 2.5).
Proof. apply X9_flux_from_i. exact i_of_imag_zpt. Defined.

(* ===================================================================== *)
(** * Further properties: the AB magnitude of Example 1 *)
(* ===================================================================== *)

Lemma f_nu_scale : u.scale u.f_nu = 1e-3.
Proof. cbv [u.f_nu u.scale u.unit_div u.unit_mul u.erg u.Hz u.cm u.s]. lra. Qed.

(** [-2.5 * log10] of a flux counted in [ABflux]. *)
Lemma from_physical_AB (x : R) :
  0 < x ->
  u.from_physical (x / np.power 10 (48.6 / -2.5)) = -2.5 * np.log10 x - 48.6.
Proof.
  intros Hx. unfold u.from_physical, np.log10.
  rewrite np_power_pos by lra.
  unfold Rdiv at 2. rewrite ln_mult, ln_Rinv, ln_Rpower;
    [| apply exp_pos | exact Hx | apply Rinv_0_lt_compat, exp_pos].
  pose proof ln_10_pos as Hd.
  replace (ln x + - (48.6 / -2.5 * ln 10)) with (ln x + 19.44 * ln 10) by lra.
  unfold Rdiv. rewrite Rmult_plus_distr_r, (Rmult_assoc 19.44), Rinv_r by lra. lra.
Qed.

(** X10.  Example 1 in general: a positive flux density per frequency has
    the AB magnitude [-2.5 * log10 (flux in erg/cm2/s/Hz) - 48.6], and the
    wavelength handed to [u.spectral_density] plays no part in it. *)
Theorem X10_abmag_of_flux_per_frequency (input_flux input_wave : u.Quantity) :
  u.has_dim input_flux u.Jy -> 0 < u.scale (u.unit input_flux) -> 0 < u.value input_flux ->
  u.to_mag input_flux u.ABmag (u.spectral_density input_wave)
  = Ok (u.mkMagnitude (-2.5 * np.log10 (u.value_in input_flux u.f_nu) - 48.6) u.ABmag).
Proof.
  intros H Hs Hv. unfold u.to_mag.
  rewrite to_value_scaling
    by (unfold u.has_dim in *; rewrite (dim_eqb_congr_l _ _ _ H); reflexivity).
  cbn [py.bind]. f_equal. f_equal.
  assert (Hpos : 0 < u.value_in input_flux u.f_nu).
  { unfold u.value_in. rewrite f_nu_scale.
    apply Rmult_lt_0_compat; [exact Hv|]. apply Rdiv_lt_0_compat; lra. }
  rewrite <- (from_physical_AB _ Hpos). f_equal.
  unfold u.value_in. cbn [u.physical_unit u.ABmag u.ABflux u.scale].
  rewrite f_nu_scale. rewrite np_power_pos by lra.
  field. repeat split; try lra; apply Rgt_not_eq, exp_pos.
Qed.

Lemma X10_witness :
  u.to_mag input_flux_ex1 u.ABmag (u.spectral_density (u.quantity 2.2 u.micron))
  = Ok (u.mkMagnitude (-2.5 * np.log10 (u.value_in input_flux_ex1 u.f_nu) - 48.6) u.ABmag).
Proof.
  apply X10_abmag_of_flux_per_frequency.
  - reflexivity.
  - cbn [input_flux_ex1 u.quantity u.unit u.scale u.Jy]. lra.
  - cbn [input_flux_ex1 u.quantity u.value]. lra.
Defined.

Lemma f_la_scale : u.scale u.f_la = 1e7.
Proof. cbv [u.f_la u.scale u.unit_div u.unit_mul u.erg u.AA u.cm u.s]. lra. Qed.

(** X11.  With a flux density per wavelength the same call does use the
    wavelength: the flux is first turned into one per frequency,
    [f_nu = f_lambda * lambda ** 2 / c] (wavelength in Angstrom, [c] in
    Angstrom per second), and the AB magnitude is taken of that. *)
Theorem X11_abmag_of_flux_per_wavelength (input_flux input_wave : u.Quantity) :
  u.has_dim input_flux u.f_la -> 0 < u.scale (u.unit input_flux) -> 0 < u.value input_flux ->
  u.has_dim input_wave u.m -> 0 < u.scale (u.unit input_wave) -> 0 < u.value input_wave ->
  u.to_mag input_flux u.ABmag (u.spectral_density input_wave)
  = Ok (u.mkMagnitude
          (-2.5 * np.log10
                    (u.value_in input_flux u.f_la
                     * (u.value_in input_wave u.AA * u.value_in input_wave u.AA
                        / (const.c * 1e10)))
           - 48.6)
          u.ABmag).
Proof.
  intros H Hs Hv Hw Hsw Hvw. unfold u.to_mag, u.to_value.
  unfold u.has_dim in H.
  rewrite _to_not_dim by (rewrite (dim_eqb_congr_l _ _ _ H); reflexivity).
  unfold u.spectral_density, u._apply_equivalencies.
  cbv [u.funit u.tunit u.forward u.backward].
  rewrite (_to_dim u.f_la (u.unit input_flux)) by (rewrite dim_eqb_sym; exact H).
  rewrite (_to_dim u.f_nu (u.physical_unit u.ABmag)) by reflexivity.
  unfold u.make_converter.
  rewrite (to_value_scaling input_wave u.AA) by exact Hw.
  cbn [py.bind]. f_equal. f_equal.
  assert (Hwpos : 0 < u.value_in input_wave u.AA).
  { unfold u.value_in. cbn [u.scale u.AA]. apply Rmult_lt_0_compat; [exact Hvw|].
    apply Rdiv_lt_0_compat; lra. }
  assert (Hfpos : 0 < u.value_in input_flux u.f_la).
  { unfold u.value_in. rewrite f_la_scale. apply Rmult_lt_0_compat; [exact Hv|].
    apply Rdiv_lt_0_compat; lra. }
  set (w := u.value_in input_wave u.AA) in *.
  assert (Hx : 0 < u.value_in input_flux u.f_la * (w * w / (const.c * 1e10))).
  { apply Rmult_lt_0_compat; [exact Hfpos|].
    apply Rdiv_lt_0_compat; [nra | unfold const.c; lra]. }
  rewrite <- (from_physical_AB _ Hx). f_equal.
  unfold u.value_in. cbn [u.physical_unit u.ABmag u.ABflux u.scale].
  rewrite f_la_scale, f_nu_scale. rewrite np_power_pos by lra.
  unfold const.c. field.
  repeat split; try lra; apply Rgt_not_eq, exp_pos.
Qed.

Lemma X11_witness :
  u.to_mag (u.quantity 1 syn_u.FLAM) u.ABmag (u.spectral_density input_wave_ex1)
  = Ok (u.mkMagnitude
          (-2.5 * np.log10
                    (u.value_in (u.quantity 1 syn_u.FLAM) u.f_la
                     * (u.value_in input_wave_ex1 u.AA * u.value_in input_wave_ex1 u.AA
                        / (const.c * 1e10)))
           - 48.6)
          u.ABmag).
Proof.
  apply X11_abmag_of_flux_per_wavelength.
  - reflexivity.
  - cbv [u.quantity u.unit u.scale syn_u.FLAM u.unit_div u.unit_mul u.erg u.cm u.s u.AA]. lra.
  - cbn [u.quantity u.value]. lra.
  - reflexivity.
  - cbn [input_wave_ex1 u.quantity u.unit u.scale u.micron]. lra.
  - cbn [input_wave_ex1 u.quantity u.value]. lra.
Defined.

(* ===================================================================== *)
(** * Further properties: the normalised blackbody of Example 2 *)
(* ===================================================================== *)

(** What [sp(w)] returns is a number of PHOTLAM. *)
Lemma call_None_inv (sp : synphot.SourceSpectrum) (w y : u.Quantity) :
  synphot.call sp w None = Ok y ->
  exists wa y0 : R,
    u.to_value w u.AA u.spectral = Ok wa /\
    synphot.evaluate (synphot.model sp) wa = Ok y0 /\
    y = u.quantity y0 syn_u.PHOTLAM.
Proof.
  unfold synphot.call. intros H.
  destruct (u.to_value w u.AA u.spectral) as [wa|] eqn:Hw; [|discriminate].
  cbn [py.bind] in H.
  destruct (synphot.evaluate (synphot.model sp) wa) as [y0|] eqn:Hev; [|discriminate].
  cbn [py.bind] in H. injection H as <-.
  exists wa, y0. repeat split; [exact Hev].
Qed.

Lemma input_ex2_of_PHOTLAM (sp : synphot.SourceSpectrum) (w : u.Quantity) (y0 f : R) :
  synphot.call sp w None = Ok (u.quantity y0 syn_u.PHOTLAM) ->
  input_ex2_of sp (u.quantity f syn_u.PHOTLAM) w
  = Ok (synphot.mkSourceSpectrum (synphot.Scaled (synphot.model sp) (f / y0))).
Proof.
  intros H. unfold input_ex2_of, factor_ex2_of. rewrite H. cbn [py.bind].
  unfold synphot.mul. rewrite PHOTLAM_ratio_dimensionless by reflexivity.
  destruct (Req_dec_T 1 1) as [_|Hne]; [reflexivity | now contradiction Hne].
Qed.

(** PHOTLAM to FNU at the wavelength [w] Angstrom: times [h] (erg s) times
    [w]. *)
Lemma convert_flux_PHOTLAM_FNU (w y : R) :
  syn_u.convert_flux (u.quantity w u.AA) (u.quantity y syn_u.PHOTLAM) syn_u.FNU
  = Ok (u.mkQuantity (const.h * 1e7 * y * w) syn_u.FNU).
Proof.
  unfold syn_u.convert_flux, u.to, u.to_value.
  rewrite _to_not_dim by reflexivity.
  unfold u.spectral_density, u._apply_equivalencies.
  cbv [u.funit u.tunit u.forward u.backward].
  repeat (first [rewrite _to_not_dim by reflexivity | rewrite _to_dim by reflexivity]).
  unfold u.make_converter. rewrite to_value_scaling by reflexivity. cbn [py.bind].
  do 2 f_equal. unfold_units. unfold const.h. lra.
Qed.

(** X12.  Read at the wavelength it was normalised at and asked for in FNU,
    a normalised spectrum returns the input flux converted from PHOTLAM to
    FNU, [h * f * lambda] ([h] in erg s, [lambda] in Angstrom): the shape
    of the spectrum (for the blackbody, its temperature) drops out. *)
Theorem X12_flux_ex2_at_input_wave (sp : synphot.SourceSpectrum) (input_wave y : u.Quantity)
  (f : R) :
  synphot.call sp input_wave None = Ok y -> u.value y <> 0 ->
  exists (wa : R) (input : synphot.SourceSpectrum),
    u.to_value input_wave u.AA u.spectral = Ok wa /\
    input_ex2_of sp (u.quantity f syn_u.PHOTLAM) input_wave = Ok input /\
    flux_ex2_of input input_wave = Ok (u.mkQuantity (const.h * 1e7 * f * wa) syn_u.FNU).
Proof.
  intros Hcall Hy.
  destruct (call_None_inv _ _ _ Hcall) as (wa & y0 & Hw & Hev & ->).
  cbn [u.quantity u.value] in Hy.
  exists wa, (synphot.mkSourceSpectrum (synphot.Scaled (synphot.model sp) (f / y0))).
  split; [exact Hw|]. split; [now apply input_ex2_of_PHOTLAM|].
  unfold flux_ex2_of, synphot.call. rewrite Hw.
  cbn [py.bind synphot.model synphot.evaluate]. rewrite Hev. cbn [py.bind].
  rewrite convert_flux_PHOTLAM_FNU. do 2 f_equal. field. exact Hy.
Qed.

Lemma call_bb_ex2_input_wave :
  synphot.call (synphot.mkSourceSpectrum (synphot.BlackBodyNorm1D 5500)) input_wave_ex2 None
  = Ok (u.quantity (Planck.photlam 5000 5500 * synphot.omega) syn_u.PHOTLAM).
Proof.
  rewrite <- input_wave_ex2_AA. apply call_blackbody.
  - reflexivity.
  - rewrite input_wave_ex2_AA. lra.
  - lra.
Qed.

Lemma X12_witness :
  exists (wa : R) (input : synphot.SourceSpectrum),
    u.to_value input_wave_ex2 u.AA u.spectral = Ok wa /\
    input_ex2_of (synphot.mkSourceSpectrum (synphot.BlackBodyNorm1D 5500))
      (u.quantity 1 syn_u.PHOTLAM) input_wave_ex2 = Ok input /\
    flux_ex2_of input input_wave_ex2 = Ok (u.mkQuantity (const.h * 1e7 * 1 * wa) syn_u.FNU).
Proof.
  apply (X12_flux_ex2_at_input_wave _ _
           (u.quantity (Planck.photlam 5000 5500 * synphot.omega) syn_u.PHOTLAM)).
  - exact call_bb_ex2_input_wave.
  - cbn [u.quantity u.value]. apply Rgt_not_eq. apply Rmult_lt_0_compat.
    + apply photlam_pos; lra.
    + apply omega_pos.
Defined.



(** X14.  The input flux of Example 2 has to be a photon flux density in
    PHOTLAM: with a flux of another dimension (FNU, say) the factor is not
    dimensionless and [bb_ex2 * factor_ex2] fails with
    [IncompatibleSources]. *)
Theorem X14_input_ex2_rejects_other_flux (sp : synphot.SourceSpectrum)
  (input_flux input_wave y : u.Quantity) :
  synphot.call sp input_wave None = Ok y ->
  u.dim_eqb (u.dim (u.unit input_flux)) (u.dim syn_u.PHOTLAM) = false ->
  input_ex2_of sp input_flux input_wave = Raise IncompatibleSources.
Proof.
  intros Hcall Hd.
  destruct (call_None_inv _ _ _ Hcall) as (wa & y0 & Hw & Hev & ->).
  unfold input_ex2_of, factor_ex2_of. rewrite Hcall. cbn [py.bind].
  unfold synphot.mul. rewrite _to_not_dim; [reflexivity|].
  cbn [u.div u.unit u.unit_div u.dim u.dimensionless_unscaled u.quantity].
  rewrite dim_div_d0. exact Hd.
Qed.

Lemma X14_witness :
  input_ex2_of (synphot.mkSourceSpectrum (synphot.BlackBodyNorm1D 5500))
    (u.quantity 1 syn_u.FNU) input_wave_ex2 = Raise IncompatibleSources.
Proof.
  apply (X14_input_ex2_rejects_other_flux _ _ _
           (u.quantity (Planck.photlam 5000 5500 * synphot.omega) syn_u.PHOTLAM)).
  - exact call_bb_ex2_input_wave.
  - reflexivity.
Defined.
